(** * flavor-feast: the recipe step editor and the favorites screen

    A shallow embedding of the event handlers of
    [src/screens/RecipeStepsScreen.tsx] and [src/screens/FavoritesScreen.tsx].

    React state is a record, one field per [useState] hook; a handler is a
    function from the state of the render it closes over to the state its
    setters produce, together with the list of effects it performs on its
    collaborators (alerts, store calls, navigation prompts).  An [async]
    handler is split at its [await]: the part that runs synchronously, and a
    continuation that is resumed with the outcome of the awaited call. *)

From Stdlib Require Import ZArith NArith Ascii String.
From stdpp Require Import base list.

Local Open Scope Z_scope.
Local Set Warnings "-register-all".

(** ** JavaScript values *)

Module Js.

(** A JS string is a sequence of UTF-16 code units. *)
Definition JsString := list N.

(** Source literals are written as Rocq strings (UTF-8 bytes) and decoded. *)
Fixpoint utf8_decode (bs : list N) : JsString :=
  match bs with
  | [] => []
  | b0 :: t0 =>
    if (b0 <? 128)%N then b0 :: utf8_decode t0
    else match t0 with
    | [] => []
    | b1 :: t1 =>
      if (b0 <? 224)%N then ((b0 mod 32) * 64 + b1 mod 64)%N :: utf8_decode t1
      else match t1 with
      | [] => []
      | b2 :: t2 =>
        if (b0 <? 240)%N
        then ((b0 mod 16) * 4096 + (b1 mod 64) * 64 + b2 mod 64)%N :: utf8_decode t2
        else match t2 with
        | [] => []
        | b3 :: t3 =>
          let cp := ((b0 mod 8) * 262144 + (b1 mod 64) * 4096
                     + (b2 mod 64) * 64 + b3 mod 64 - 65536)%N in
          (55296 + cp / 1024)%N :: (56320 + cp mod 1024)%N :: utf8_decode t3
        end
      end
    end
  end.

Definition lit (s : string) : JsString :=
  utf8_decode (map N_of_ascii (list_ascii_of_string s)).

(** ECMAScript WhiteSpace and LineTerminator code points: what
    [String.prototype.trim] strips. *)
Definition isWhiteSpace (c : N) : bool :=
  ((c =? 9) || (c =? 10) || (c =? 11) || (c =? 12) || (c =? 13) || (c =? 32)
   || (c =? 160) || (c =? 5760) || ((8192 <=? c) && (c <=? 8202))
   || (c =? 8232) || (c =? 8233) || (c =? 8239) || (c =? 8287)
   || (c =? 12288) || (c =? 65279))%N.

Fixpoint trimStart (s : JsString) : JsString :=
  match s with
  | [] => []
  | c :: s' => if isWhiteSpace c then trimStart s' else s
  end.

Definition trimEnd (s : JsString) : JsString := rev (trimStart (rev s)).

Definition trim (s : JsString) : JsString := trimEnd (trimStart s).

(** [s === ''] *)
Definition isEmptyString (s : JsString) : bool :=
  match s with [] => true | _ => false end.

(** Values of type [any] and values whose TypeScript type is declared outside
    this code.  Numbers are restricted to integers. *)
Inductive JsValue : Type :=
| JsUndefined
| JsNull
| JsBool (b : bool)
| JsNumber (z : Z)
| JsStr (s : JsString)
| JsArray (elems : list JsValue)
| JsObject (fields : list (JsString * JsValue)).

(** ToBoolean. *)
Definition truthy (v : JsValue) : bool :=
  match v with
  | JsUndefined | JsNull => false
  | JsBool b => b
  | JsNumber z => negb (z =? 0)
  | JsStr s => negb (isEmptyString s)
  | JsArray _ | JsObject _ => true
  end.

(** ToBoolean of an optional string property ([undefined] when absent). *)
Definition truthyStr (o : option JsString) : bool :=
  match o with
  | None => false
  | Some s => negb (isEmptyString s)
  end.

(** ToBoolean of an optional boolean property. *)
Definition truthyBool (o : option bool) : bool :=
  match o with
  | None => false
  | Some b => b
  end.

(** What a [catch] clause can receive: an [Error] instance with its
    [message], or any other thrown value. *)
Inductive Thrown : Type :=
| ErrorObject (message : JsString)
| NonError (v : JsValue).

(** How an awaited promise settles. *)
Inductive Settled (A : Type) : Type :=
| Fulfilled (a : A)
| RejectedWith (e : Thrown).
Arguments Fulfilled {A} a.
Arguments RejectedWith {A} e.

End Js.
Import Js.

(** ** types *)

Module Step.
Record t : Type := mk {
  text : option JsString;
  description : option JsString;
  imageUrl : option JsString;
}.
End Step.

Module Recipe.
Record t : Type := mk {
  id : option JsString;
  createdByUser : option bool;
  ingredients : option (list JsValue);
  steps : option (list Step.t);
  (* every other own property, carried along by the object spread *)
  others : list (JsString * JsValue);
}.
End Recipe.

Module User.
Record t : Type := mk {
  id : JsValue;
  others : list (JsString * JsValue);
}.
End User.

(** ** Array.prototype helpers *)

(** [l.filter((x, i) => p(x, i))]: the callback also receives the index. *)
Fixpoint filter_from {A : Type} (p : A -> Z -> bool) (i : Z) (l : list A) : list A :=
  match l with
  | [] => []
  | x :: l' =>
    if p x i then x :: filter_from p (i + 1) l' else filter_from p (i + 1) l'
  end.

Definition Array_filter {A : Type} (p : A -> Z -> bool) (l : list A) : list A :=
  filter_from p 0 l.

(** [l[index]] for a number [index]: [undefined] outside [0 .. length-1]. *)
Definition Array_get {A : Type} (l : list A) (index : Z) : option A :=
  if index <? 0 then None else l !! Z.to_nat index.

(** ** screens/RecipeStepsScreen.tsx *)

Module RecipeStepsScreen.

Inductive ModalType : Type := CREATE_SUCCESS | EDIT_SUCCESS | ERROR.

(** The [useState] hooks of the component. *)
Record State : Type := mkState {
  steps : list Step.t;
  showSuccessModal : bool;
  showErrorModal : bool;
  isEditing : bool;
  saving : bool;
  modalType : option ModalType;
  errorType : JsString;
}.

Definition setSteps (v : list Step.t) (st : State) : State :=
  mkState v (showSuccessModal st) (showErrorModal st) (isEditing st)
          (saving st) (modalType st) (errorType st).
Definition setShowSuccessModal (v : bool) (st : State) : State :=
  mkState (steps st) v (showErrorModal st) (isEditing st)
          (saving st) (modalType st) (errorType st).
Definition setShowErrorModal (v : bool) (st : State) : State :=
  mkState (steps st) (showSuccessModal st) v (isEditing st)
          (saving st) (modalType st) (errorType st).
Definition setIsEditing (v : bool) (st : State) : State :=
  mkState (steps st) (showSuccessModal st) (showErrorModal st) v
          (saving st) (modalType st) (errorType st).
Definition setSaving (v : bool) (st : State) : State :=
  mkState (steps st) (showSuccessModal st) (showErrorModal st) (isEditing st)
          v (modalType st) (errorType st).
Definition setModalType (v : option ModalType) (st : State) : State :=
  mkState (steps st) (showSuccessModal st) (showErrorModal st) (isEditing st)
          (saving st) v (errorType st).
Definition setErrorType (v : JsString) (st : State) : State :=
  mkState (steps st) (showSuccessModal st) (showErrorModal st) (isEditing st)
          (saving st) (modalType st) v.

(** [const recipe = route.params?.recipe as Recipe] is [None] when the route
    carries no recipe.  The initial state: [useState(recipe?.steps || [])]
    and the literal initial values of the other hooks. *)
Definition initialState (recipe : option Recipe.t) : State :=
  mkState
    (match recipe with
     | Some r => match Recipe.steps r with Some l => l | None => [] end
     | None => []
     end)
    false false false false None (lit "").

(** The calls into the recipe context. *)
Inductive StoreCall : Type :=
| editRecipe (id : JsString) (recipe : Recipe.t)
| addRecipe (recipe : Recipe.t).

Inductive Effect : Type :=
| AlertAlert (title message : JsString)
| ConsoleError (label : JsString) (error : Thrown)
| Store (call : StoreCall).

(** *** Step list editing *)

Definition addStep (st : State) : State :=
  setSteps (steps st ++ [Step.mk (Some (lit "")) None (Some (lit ""))]) st.

Definition removeStep (index : Z) (st : State) : State * list Effect :=
  if 1 <? Z.of_nat (length (steps st)) then
    let updated := Array_filter (fun _ i => negb (i =? index)) (steps st) in
    (setSteps updated st, [])
  else
    (st, [AlertAlert (lit "Error") (lit "Debe tener al menos un paso")]).

(** [keyof Step] *)
Inductive StepField : Type := text | description | imageUrl.

Definition assignField (field : StepField) (value : JsString) (s : Step.t) : Step.t :=
  match field with
  | text => Step.mk (Some value) (Step.description s) (Step.imageUrl s)
  | description => Step.mk (Step.text s) (Some value) (Step.imageUrl s)
  | imageUrl => Step.mk (Step.text s) (Step.description s) (Some value)
  end.

(** [handleChange]: [updated[index]] is [undefined] out of range, and the
    assignment to a property of [undefined] throws a TypeError before
    [setSteps] runs ([None]).  The write goes into the step object itself,
    which the old array holds too.  Steps are modelled by value: the model
    is that of a list holding no step object twice (where one object sits
    at two indices, the source's write shows at both). *)
Definition handleChange (index : Z) (field : StepField) (value : JsString)
    (st : State) : option State :=
  let updated := steps st in
  match Array_get updated index with
  | None => None
  | Some s =>
    Some (setSteps (<[Z.to_nat index := assignField field value s]> updated) st)
  end.

(** *** Saving *)

(** The predicate of [steps.filter(...)] in [handleSave]. *)
Definition isValidStep (step : Step.t) : bool :=
  (truthyStr (Step.text step)
   && negb (isEmptyString (trim (default [] (Step.text step)))))
  || (truthyStr (Step.description step)
      && negb (isEmptyString (trim (default [] (Step.description step))))).

(** [{ ...recipe, steps: validSteps }] *)
Definition withSteps (recipe : Recipe.t) (validSteps : list Step.t) : Recipe.t :=
  Recipe.mk (Recipe.id recipe) (Recipe.createdByUser recipe)
            (Recipe.ingredients recipe) (Some validSteps) (Recipe.others recipe).

(** [recipe.id && recipe.id.trim() !== '' && recipe.createdByUser] *)
Definition isEdit (recipe : Recipe.t) : bool :=
  truthyStr (Recipe.id recipe)
  && negb (isEmptyString (trim (default [] (Recipe.id recipe))))
  && truthyBool (Recipe.createdByUser recipe).

(** An [async] handler with at most one [await]. *)
Inductive Async : Type :=
| Return (st : State) (fx : list Effect)
    (* ran to its end without awaiting *)
| ThrowTypeError
    (* a property of [undefined] was read: the promise rejects, no setter ran *)
| Await (st : State) (call : StoreCall)
        (k : Settled unit -> State -> State * list Effect).
    (* [st]: the state when the call is issued; [k]: the rest of the handler,
       run on the state current when the call settles *)

(** The body of [try] after the awaited call, then [catch], then [finally]. *)
Definition afterPersist (edit : bool) (r : Settled unit) (st : State)
    : State * list Effect :=
  let '(st1, fx) :=
    match r with
    | Fulfilled _ =>
      if edit then
        (setShowSuccessModal true
           (setModalType (Some EDIT_SUCCESS) (setIsEditing true st)), [])
      else
        (setShowSuccessModal true (setModalType (Some CREATE_SUCCESS) st), [])
    | RejectedWith error =>
      let errorMessage :=
        match error with
        | ErrorObject message => message
        | NonError _ => lit "ERROR_GENERAL"
        end in
      (setShowErrorModal true
         (setModalType (Some ERROR) (setErrorType errorMessage st)),
       [ConsoleError (lit "Error capturado en handleSave:") error])
    end in
  (setSaving false st1, fx).

Definition handleSave (recipe : option Recipe.t) (st : State) : Async :=
  match recipe with
  | None => ThrowTypeError
  | Some recipe =>
    if match Recipe.ingredients recipe with
       | None => true
       | Some l => Z.of_nat (length l) =? 0
       end
    then
      Return st [AlertAlert (lit "Error")
                            (lit "Debe ingresar al menos un ingrediente.")]
    else
      let validSteps := Array_filter (fun step _ => isValidStep step) (steps st) in
      if Z.of_nat (length validSteps) =? 0 then
        Return st [AlertAlert (lit "Error") (lit "Debe ingresar al menos un paso.")]
      else
        let st1 := setSaving true st in
        let completeRecipe := withSteps recipe validSteps in
        if isEdit recipe then
          Await st1 (editRecipe (default [] (Recipe.id recipe)) completeRecipe)
                (afterPersist true)
        else
          Await st1 (addRecipe completeRecipe) (afterPersist false)
  end.

(** The save button: [<TouchableOpacity onPress={handleSave}
    disabled={saving}>].  A disabled touchable does not call its [onPress]. *)
Definition pressSave (recipe : option Recipe.t) (st : State) : Async :=
  if saving st then Return st [] else handleSave recipe st.

(** One whole save attempt against a store whose answer to each call is given
    by [store], with nothing else happening while the call is pending: the
    final state and every effect in order, the store call included. *)
Definition runAsync (store : StoreCall -> Settled unit) (a : Async)
    : option (State * list Effect) :=
  match a with
  | Return st fx => Some (st, fx)
  | ThrowTypeError => None
  | Await st call k =>
    let '(st', fx) := k (store call) st in Some (st', Store call :: fx)
  end.

Definition persistenceCalls (fx : list Effect) : list StoreCall :=
  omap (fun e => match e with Store c => Some c | _ => None end) fx.

Record ModalText : Type := mkModalText { title : JsString; message : JsString }.

Definition getErrorMessage (st : State) : ModalText :=
  if decide (errorType st = lit "IMAGEN_INVALIDA") then
    mkModalText (lit "¡Error en la imagen!")
      (lit "La URL de la imagen no es válida. Por favor, verifica que sea una URL correcta de una imagen.")
  else if decide (errorType st = lit "INGREDIENTE_INVALIDO") then
    mkModalText (lit "¡Error en los ingredientes!")
      (lit "Hay un problema con los ingredientes seleccionados. Verifica que sean válidos.")
  else if decide (errorType st = lit "PASO_INVALIDO") then
    mkModalText (lit "¡Error en los pasos!")
      (lit "Hay un problema con los pasos de la receta. Verifica que estén completos.")
  else if decide (errorType st = lit "ERROR_VALIDACION") then
    mkModalText (lit "¡Error de validación!")
      (lit "Los datos ingresados no son válidos. Por favor, revisa todos los campos.")
  else
    mkModalText (lit "¡Error al guardar la receta!")
      (lit "No se pudo guardar la receta. Por favor, verifica tu conexión a internet e inténtalo de nuevo.").

(** The five cases of the [switch] in [getErrorMessage], as kinds, and the
    text each case returns. *)
Inductive ErrorKind : Type :=
| ImageInvalid | IngredientInvalid | StepInvalid | GeneralValidation | GeneralError.

Definition classifyError (identifier : JsString) : ErrorKind :=
  if decide (identifier = lit "IMAGEN_INVALIDA") then ImageInvalid
  else if decide (identifier = lit "INGREDIENTE_INVALIDO") then IngredientInvalid
  else if decide (identifier = lit "PASO_INVALIDO") then StepInvalid
  else if decide (identifier = lit "ERROR_VALIDACION") then GeneralValidation
  else GeneralError.

Definition errorText (kind : ErrorKind) : ModalText :=
  match kind with
  | ImageInvalid =>
    mkModalText (lit "¡Error en la imagen!")
      (lit "La URL de la imagen no es válida. Por favor, verifica que sea una URL correcta de una imagen.")
  | IngredientInvalid =>
    mkModalText (lit "¡Error en los ingredientes!")
      (lit "Hay un problema con los ingredientes seleccionados. Verifica que sean válidos.")
  | StepInvalid =>
    mkModalText (lit "¡Error en los pasos!")
      (lit "Hay un problema con los pasos de la receta. Verifica que estén completos.")
  | GeneralValidation =>
    mkModalText (lit "¡Error de validación!")
      (lit "Los datos ingresados no son válidos. Por favor, revisa todos los campos.")
  | GeneralError =>
    mkModalText (lit "¡Error al guardar la receta!")
      (lit "No se pudo guardar la receta. Por favor, verifica tu conexión a internet e inténtalo de nuevo.")
  end.

(** *** Names for the literals of the handlers *)

(** [{ text: '', imageUrl: '' }] *)
Definition blankStep : Step.t := Step.mk (Some (lit "")) None (Some (lit "")).

Definition minimumOneStep : Effect :=
  AlertAlert (lit "Error") (lit "Debe tener al menos un paso").
Definition noIngredients : Effect :=
  AlertAlert (lit "Error") (lit "Debe ingresar al menos un ingrediente.").
Definition noValidSteps : Effect :=
  AlertAlert (lit "Error") (lit "Debe ingresar al menos un paso.").

(** *** Runs of the editor *)

(** What the user can do to the step list while the screen is shown. *)
Inductive EditorOp : Type :=
| DoAddStep
| DoRemoveStep (index : Z)
| DoHandleChange (index : Z) (field : StepField) (value : JsString).

(** A handler that throws leaves the state as it was. *)
Definition applyOp (st : State) (op : EditorOp) : State :=
  match op with
  | DoAddStep => addStep st
  | DoRemoveStep index => fst (removeStep index st)
  | DoHandleChange index field value =>
    default st (handleChange index field value st)
  end.

Definition applyOps (ops : list EditorOp) (st : State) : State :=
  foldl applyOp st ops.

(** A property is blank after trimming when it is absent or trims to ['']. *)
Definition blankAfterTrim (o : option JsString) : bool :=
  match o with
  | None => true
  | Some s => isEmptyString (trim s)
  end.

End RecipeStepsScreen.

(** ** screens/FavoritesScreen.tsx *)

Module FavoritesScreen.

(** [{ success, message? }], the answer of [toggleFavorite]. *)
Record ToggleResult : Type := mkToggleResult {
  success : bool;
  message : option JsString;
}.

(** [() => navigation.navigate('Login')] *)
Inductive Callback : Type :=
| navigate (screen : JsString).

Inductive Effect : Type :=
| showLoginAlert (onLogin : Callback)
| toggleFavorite (item : JsValue)
| AlertAlert (title message : JsString).

Inductive Async : Type :=
| Return (fx : list Effect)
| Await (item : JsValue) (k : ToggleResult -> list Effect).
    (* [toggleFavorite(item)] is issued; [k] is the rest of the handler *)

(** [user?.id] *)
Definition userId (user : option User.t) : JsValue :=
  match user with
  | Some u => User.id u
  | None => JsUndefined
  end.

Definition handleFavoritePress (user : option User.t) (item : JsValue) : Async :=
  if negb (truthy (userId user)) then
    Return [showLoginAlert (navigate (lit "Login"))]
  else
    Await item (fun result =>
      if negb (success result) && truthyStr (message result) then
        [AlertAlert (lit "Error") (default [] (message result))]
      else []).

(** The whole handler against a store answering [store item]: every effect
    in order, the call to the mutator included. *)
Definition runAsync (store : JsValue -> ToggleResult) (a : Async) : list Effect :=
  match a with
  | Return fx => fx
  | Await item k => toggleFavorite item :: k (store item)
  end.

Definition mutatorCalls (fx : list Effect) : list JsValue :=
  omap (fun e => match e with toggleFavorite item => Some item | _ => None end) fx.

Definition alerts (fx : list Effect) : list (JsString * JsString) :=
  omap (fun e => match e with AlertAlert t m => Some (t, m) | _ => None end) fx.

Definition loginPrompts (fx : list Effect) : list Callback :=
  omap (fun e => match e with showLoginAlert c => Some c | _ => None end) fx.

End FavoritesScreen.

(** ** screens/RecipeStepsScreen.tsx: the modals and the rendered step list *)

Module RecipeStepsView.
Import RecipeStepsScreen.

(** [navigation.navigate(name, params)] *)
Inductive Navigation : Type :=
| navigate (name : JsString) (params : list (JsString * JsValue)).

Definition handleGoToMyRecipes (st : State) : State * list Navigation :=
  (setModalType None (setShowSuccessModal false st),
   [navigate (lit "HomeTabs") [(lit "screen", JsStr (lit "Mis Recetas"))]]).

Definition handleCloseErrorModal (st : State) : State :=
  setErrorType (lit "") (setModalType None (setShowErrorModal false st)).

Module SuccessText.
Record t : Type := mk { title : JsString; message : JsString; buttonText : JsString }.
End SuccessText.

Definition getSuccessMessage (st : State) : SuccessText.t :=
  match modalType st with
  | Some CREATE_SUCCESS =>
    SuccessText.mk (lit "¡Receta creada con éxito!")
      (lit "Tu receta ha sido creada correctamente y ya está disponible en tu lista personal.")
      (lit "Ir a Mis Recetas")
  | Some EDIT_SUCCESS =>
    SuccessText.mk (lit "¡Receta actualizada con éxito!")
      (lit "Los cambios en tu receta han sido guardados correctamente.")
      (lit "Ir a Mis Recetas")
  | _ =>
    SuccessText.mk (lit "¡Operación exitosa!")
      (lit "La operación se completó correctamente.")
      (lit "Continuar")
  end.

(** [a || d] for an optional string [a]. *)
Definition orStr (a : option JsString) (d : JsString) : JsString :=
  if truthyStr a then default [] a else d.

(** One card of [steps.map((step, index) => ...)]: the number shown in
    "Paso {index + 1}", the index its "Eliminar" button passes to
    [removeStep] (the button is rendered only under [steps.length > 1]), the
    [value] of the text input and the [imageUrl] given to the image picker.
    The text input and the picker of the card call [handleChange] with the
    card's [index]. *)
Record StepCard : Type := mkStepCard {
  index : Z;
  number : Z;
  removeButton : option Z;
  value : JsString;
  pickerUrl : JsString;
}.

Definition renderStep (st : State) (i : nat) (step : Step.t) : StepCard :=
  let index := Z.of_nat i in
  mkStepCard index (index + 1)
    (if 1 <? Z.of_nat (length (steps st)) then Some index else None)
    (orStr (Step.text step) (orStr (Step.description step) (lit "")))
    (orStr (Step.imageUrl step) (lit "")).

Definition renderSteps (st : State) : list StepCard :=
  imap (renderStep st) (steps st).

(** The recipe a store call carries. *)
Definition sentRecipe (call : StoreCall) : Recipe.t :=
  match call with
  | editRecipe _ recipe => recipe
  | addRecipe recipe => recipe
  end.

(** [step[field]] *)
Definition getField (field : StepField) (s : Step.t) : option JsString :=
  match field with
  | text => Step.text s
  | description => Step.description s
  | imageUrl => Step.imageUrl s
  end.

End RecipeStepsView.

(** ** screens/FavoritesScreen.tsx: the list and its refresh *)

Module FavoritesList.

(** An entry of the rating cache. *)
Record RatingData : Type := mkRatingData { promedio : JsValue; votos : JsValue }.

(** [v || 0] *)
Definition orZero (v : JsValue) : JsValue := if truthy v then v else JsNumber 0.

(** [v === 0] *)
Definition isZero (v : JsValue) : bool :=
  match v with
  | JsNumber z => z =? 0
  | _ => false
  end.

Inductive Node : Type :=
| Text (content : JsString)
| StarRating (rating : JsValue) (size : Z).

(** [renderRatingSection] with the constants [renderFavorite] computes from
    [ratingData = ratingCache.getRating(item.id)] ([None]: [undefined]). *)
Definition renderRatingSection (ratingData : option RatingData) : Node :=
  let averageRating :=
    orZero (match ratingData with Some d => promedio d | None => JsUndefined end) in
  let voteCount :=
    orZero (match ratingData with Some d => votos d | None => JsUndefined end) in
  let isRatingLoaded := match ratingData with Some _ => true | None => false end in
  if negb isRatingLoaded then Text (lit "Cargando valoración...")
  else if isZero voteCount then Text (lit "Sin valoraciones aún")
  else StarRating averageRating 14.

(** What [renderFavorite] adds to the item itself: the rating section and
    the name of the heart icon. *)
Record Row : Type := mkRow { item : Recipe.t; rating : Node; heart : JsString }.

Definition renderFavorite (getRating : option JsString -> option RatingData)
    (isFavorite : option JsString -> bool) (item : Recipe.t) : Row :=
  mkRow item (renderRatingSection (getRating (Recipe.id item)))
        (if isFavorite (Recipe.id item) then lit "heart" else lit "heart-outline").

(** The body of the screen under the heading.  [FlatList] shows its
    [ListEmptyComponent] when [data] is empty and one rendered item per
    element of [data] otherwise. *)
Inductive Body : Type :=
| emptyContainer
| ListEmptyComponent (spinner : bool)
| Rows (rows : list Row).

Definition FlatList (data : list Recipe.t) (renderItem : Recipe.t -> Row)
    (listEmptyComponent : Body) : Body :=
  match data with
  | [] => listEmptyComponent
  | _ => Rows (map renderItem data)
  end.

Definition renderBody (favorites : list Recipe.t) (refreshing : bool)
    (getRating : option JsString -> option RatingData)
    (isFavorite : option JsString -> bool) : Body :=
  if Z.of_nat (length favorites) =? 0 then emptyContainer
  else FlatList favorites (renderFavorite getRating isFavorite)
                (ListEmptyComponent refreshing).

(** The calls [onRefresh] awaits. *)
Inductive CacheCall : Type :=
| refreshFavorites
| loadMultipleRatings (recipeIds : list (option JsString)).

(** The statements of a straight-line [async] function. *)
Inductive Instr : Type :=
| setRefreshing (v : bool)
| await (call : CacheCall).

Definition loadFavoriteRatings (favorites : list Recipe.t) : list Instr :=
  if Z.of_nat (length favorites) =? 0 then []
  else
    let recipeIds := map Recipe.id favorites in
    [await (loadMultipleRatings recipeIds)].

Definition onRefresh (favorites : list Recipe.t) : list Instr :=
  [setRefreshing true; await refreshFavorites]
  ++ loadFavoriteRatings favorites
  ++ [setRefreshing false].

(** Where a run ends: the [refreshing] state, the calls made in order, and
    the value the function's promise rejects with, if an awaited call
    rejected (nothing catches it, the statements after it do not run). *)
Record Run : Type := mkRun {
  refreshing : bool;
  calls : list CacheCall;
  rejection : option Thrown;
}.

Fixpoint exec (answer : CacheCall -> Settled unit) (prog : list Instr)
    (refreshing : bool) : Run :=
  match prog with
  | [] => mkRun refreshing [] None
  | setRefreshing v :: prog' => exec answer prog' v
  | await call :: prog' =>
    match answer call with
    | Fulfilled _ =>
      let r := exec answer prog' refreshing in
      mkRun (FavoritesList.refreshing r) (call :: calls r) (rejection r)
    | RejectedWith e => mkRun refreshing [call] (Some e)
    end
  end.

End FavoritesList.

(** ** Sample data *)

Module Samples.
Import RecipeStepsScreen.

Definition mix : Step.t := Step.mk (Some (lit "Mezclar")) None (Some (lit "")).
Definition bake : Step.t := Step.mk None (Some (lit " Hornear ")) None.
Definition serve : Step.t := Step.mk (Some (lit "Servir")) None None.
Definition spaces : Step.t := Step.mk (Some (lit "  ")) (Some (lit "")) None.

Definition flour : JsValue := JsObject [(lit "name", JsStr (lit "harina"))].

Definition editing (l : list Step.t) : State :=
  mkState l false false false false None (lit "").

(** A recipe of the user's own, already stored as "r1". *)
Definition mine : Recipe.t :=
  Recipe.mk (Some (lit "r1")) (Some true) (Some [flour]) (Some [mix]) [].

(** A new recipe: owned, not stored yet. *)
Definition fresh : Recipe.t :=
  Recipe.mk None (Some true) (Some [flour]) None [].

(** A recipe whose [steps] is the empty array. *)
Definition stepless : Recipe.t :=
  Recipe.mk None (Some true) (Some [flour]) (Some []) [].

Definition unstocked : Recipe.t :=
  Recipe.mk None (Some true) (Some []) (Some [mix]) [].

(** The state while a save of [mix] is pending. *)
Definition inFlight : State := setSaving true (editing [mix]).

Definition ana : User.t := User.mk (JsStr (lit "u1")) [].

(** A user object whose [id] is the empty string. *)
Definition anonymous : User.t := User.mk (JsStr (lit "")) [].

Definition cake : JsValue := JsObject [(lit "id", JsStr (lit "r7"))].

End Samples.

Module ListSamples.
Import FavoritesList.

Definition tarta : Recipe.t :=
  Recipe.mk (Some (lit "r7")) (Some false) (Some [Samples.flour]) None [].
Definition flan : Recipe.t :=
  Recipe.mk (Some (lit "r9")) (Some true) (Some [Samples.flour]) None [].

(** A store that is off line: refreshing the favorites fails. *)
Definition offline (call : CacheCall) : Settled unit :=
  match call with
  | refreshFavorites => RejectedWith (ErrorObject (lit "Network request failed"))
  | loadMultipleRatings _ => Fulfilled ()
  end.

End ListSamples.

(** ** Properties of the helpers *)

Section ArrayFilter.
Context {A : Type}.

Lemma filter_from_no_index (p : A -> bool) (l : list A) (i : Z) :
  filter_from (fun x _ => p x) i l = List.filter p l.
Proof.
  revert i; induction l as [|x l IH]; intros i; simpl; [done|].
  rewrite IH. done.
Qed.

Lemma filter_from_no_such_index (l : list A) (k index : Z) :
  index < k \/ k + Z.of_nat (length l) <= index ->
  filter_from (fun _ i => negb (i =? index)) k l = l.
Proof.
  revert k; induction l as [|x l IH]; intros k Hk;
    cbn [length filter_from] in *; [done|].
  rewrite Nat2Z.inj_succ in Hk.
  destruct (Z.eqb_spec k index); [lia|]. simpl. f_equal. apply IH. lia.
Qed.
(** Dropping the element whose index is [index], counting from [k]. *)
Lemma filter_from_other_index (l : list A) (k index : Z) :
  k <= index < k + Z.of_nat (length l) ->
  filter_from (fun _ i => negb (i =? index)) k l
  = take (Z.to_nat (index - k)) l ++ drop (S (Z.to_nat (index - k))) l.
Proof.
  revert k; induction l as [|x l IH]; intros k Hk;
    cbn [length filter_from] in *; [lia|].
  rewrite Nat2Z.inj_succ in Hk.
  destruct (Z.eqb_spec k index) as [->|Hne]; simpl.
  - rewrite Z.sub_diag. simpl. rewrite drop_0.
    apply filter_from_no_such_index. lia.
  - rewrite IH by lia.
    replace (Z.to_nat (index - k)) with (S (Z.to_nat (index - (k + 1)))) by lia.
    done.
Qed.

End ArrayFilter.

Lemma trimStart_nil (s : JsString) :
  trimStart s = [] <-> forallb isWhiteSpace s = true.
Proof.
  induction s as [|c s IH]; simpl; [done|].
  destruct (isWhiteSpace c); simpl; [done|]. split; discriminate.
Qed.

Lemma trimStart_head (s : JsString) (c : N) (s' : JsString) :
  trimStart s = c :: s' -> isWhiteSpace c = false.
Proof.
  induction s as [|d s IH]; simpl; [discriminate|].
  destruct (isWhiteSpace d) eqn:Hd; [done|]. intros [= <- _]. done.
Qed.

(** [s.trim() === ''] exactly when [s] holds white space only. *)
Lemma trim_nil (s : JsString) :
  trim s = [] <-> forallb isWhiteSpace s = true.
Proof.
  unfold trim, trimEnd. split.
  - intros H. apply trimStart_nil.
    destruct (trimStart s) as [|c s'] eqn:Hs; [done|].
    apply (f_equal (@rev N)) in H. rewrite rev_involutive in H. simpl in H.
    apply trimStart_nil in H. rewrite forallb_app in H. simpl in H.
    rewrite (trimStart_head _ _ _ Hs) in H.
    rewrite andb_false_r in H. discriminate.
  - intros H. apply trimStart_nil in H. rewrite H. done.
Qed.

(** ** The step list editor *)

Section StepListEditor.
Import RecipeStepsScreen.

Lemma removeStep_rejects (st : State) (index : Z) :
  (length (steps st) <= 1)%nat -> removeStep index st = (st, [minimumOneStep]).
Proof.
  intros H. unfold removeStep.
  destruct (Z.ltb_spec 1 (Z.of_nat (length (steps st)))); [lia|done].
Qed.

Lemma removeStep_in_range (st : State) (index : Z) :
  (1 < length (steps st))%nat -> 0 <= index < Z.of_nat (length (steps st)) ->
  removeStep index st
  = (setSteps (take (Z.to_nat index) (steps st)
               ++ drop (S (Z.to_nat index)) (steps st)) st, []).
Proof.
  intros H Hi. unfold removeStep, Array_filter.
  destruct (Z.ltb_spec 1 (Z.of_nat (length (steps st)))); [|lia].
  rewrite filter_from_other_index by lia. rewrite Z.sub_0_r. done.
Qed.

Lemma removeStep_out_of_range (st : State) (index : Z) :
  (1 < length (steps st))%nat ->
  index < 0 \/ Z.of_nat (length (steps st)) <= index ->
  removeStep index st = (setSteps (steps st) st, []).
Proof.
  intros H Hi. unfold removeStep, Array_filter.
  destruct (Z.ltb_spec 1 (Z.of_nat (length (steps st)))); [|lia].
  rewrite filter_from_no_such_index by lia. done.
Qed.

Lemma length_take_drop_S {A : Type} (l : list A) (i : nat) :
  (i < length l)%nat -> length (take i l ++ drop (S i) l) = (length l - 1)%nat.
Proof. intros H. rewrite length_app, length_take, length_drop. lia. Qed.

(** C7: on a one-step list [removeStep] changes nothing and raises the
    "at least one step" alert, whatever the index; on a list of [n > 1]
    steps and an index [0 <= index < n] it raises nothing and leaves the
    [n - 1] other steps, those before [index] followed by those after
    it. *)
Theorem removeStep_spec (st : State) (index : Z) :
  (length (steps st) = 1%nat ->
     removeStep index st = (st, [minimumOneStep])
     /\ length (steps (fst (removeStep index st))) = 1%nat)
  /\ (forall n : nat,
        length (steps st) = n -> (1 < n)%nat -> 0 <= index < Z.of_nat n ->
        removeStep index st
        = (setSteps (take (Z.to_nat index) (steps st)
                     ++ drop (S (Z.to_nat index)) (steps st)) st, [])
        /\ length (steps (fst (removeStep index st))) = (n - 1)%nat).
Proof.
  split.
  - intros H. rewrite removeStep_rejects by lia. done.
  - intros n Hn Hlt Hi. subst n.
    rewrite removeStep_in_range by done. split; [done|].
    simpl. apply length_take_drop_S. lia.
Qed.

Lemma removeStep_spec_witness :
  (removeStep 5 (Samples.editing [Samples.mix])
   = (Samples.editing [Samples.mix], [minimumOneStep]))
  /\ steps (fst (removeStep 1 (Samples.editing
                                [Samples.mix; Samples.bake; Samples.serve])))
     = [Samples.mix; Samples.serve].
Proof.
  split.
  - apply (proj1 (removeStep_spec (Samples.editing [Samples.mix]) 5)).
    reflexivity.
  - pose proof (proj2 (removeStep_spec
      (Samples.editing [Samples.mix; Samples.bake; Samples.serve]) 1) 3%nat
      eq_refl ltac:(lia) ltac:(lia)) as [H _].
    rewrite H. reflexivity.
Defined.

(** C8: [addStep] makes the list one longer, its last element the new
    step with empty [text] and empty [imageUrl], the steps before it the
    old list; it does so for a list of any length. *)
Theorem addStep_spec (st : State) :
  steps (addStep st) = steps st ++ [blankStep]
  /\ length (steps (addStep st)) = S (length (steps st))
  /\ last (steps (addStep st)) = Some blankStep
  /\ Step.text blankStep = Some [] /\ Step.imageUrl blankStep = Some []
  /\ take (length (steps st)) (steps (addStep st)) = steps st
  /\ (forall i s, steps st !! i = Some s -> steps (addStep st) !! i = Some s).
Proof.
  unfold addStep; simpl. fold blankStep.
  repeat split.
  - rewrite length_app. simpl. lia.
  - apply last_snoc.
  - apply take_app_length.
  - intros i s H. apply lookup_app_l_Some. done.
Qed.

Lemma addStep_spec_witness :
  steps (addStep (Samples.editing [Samples.mix])) !! 0%nat = Some Samples.mix
  /\ steps (addStep (Samples.editing [Samples.mix])) !! 1%nat = Some blankStep.
Proof.
  split.
  - apply (proj2 (proj2 (proj2 (proj2 (proj2 (proj2
      (addStep_spec (Samples.editing [Samples.mix]))))))) 0%nat Samples.mix).
    reflexivity.
  - rewrite (proj1 (addStep_spec (Samples.editing [Samples.mix]))).
    reflexivity.
Defined.

(** C10: the list is empty when the screen is entered without a recipe or
    with a recipe that has no [steps]; on the empty list [removeStep]
    takes the branch of the alert for every index, and the state stays as
    it was. *)
Theorem removeStep_empty (st : State) (index : Z) :
  steps st = [] ->
  removeStep index st = (st, [minimumOneStep])
  /\ steps (fst (removeStep index st)) = []
  /\ steps (initialState None) = []
  /\ (forall r, Recipe.steps r = None -> steps (initialState (Some r)) = []).
Proof.
  intros H. rewrite removeStep_rejects by (rewrite H; simpl; lia).
  repeat split; [done|]. intros r Hr. simpl. rewrite Hr. done.
Qed.

Lemma removeStep_empty_witness :
  removeStep 0 (initialState None) = (initialState None, [minimumOneStep])
  /\ removeStep (-3) (initialState (Some Samples.fresh))
     = (initialState (Some Samples.fresh), [minimumOneStep]).
Proof.
  split.
  - apply (removeStep_empty (initialState None) 0). reflexivity.
  - apply (removeStep_empty (initialState (Some Samples.fresh)) (-3)).
    reflexivity.
Defined.

Lemma applyOp_keeps_a_step (st : State) (op : EditorOp) :
  (1 <= length (steps st))%nat -> (1 <= length (steps (applyOp st op)))%nat.
Proof.
  intros H. destruct op as [|index|index field value]; simpl.
  - unfold addStep; simpl. rewrite length_app. lia.
  - destruct (decide (1 < length (steps st))%nat) as [Hlen|Hlen].
    + destruct (decide (0 <= index < Z.of_nat (length (steps st)))) as [Hi|Hi].
      * rewrite removeStep_in_range by done. simpl.
        rewrite length_take_drop_S by lia. lia.
      * rewrite removeStep_out_of_range by lia. done.
    + rewrite removeStep_rejects by lia. done.
  - unfold handleChange. destruct (Array_get (steps st) index); simpl; [|done].
    rewrite length_insert. done.
Qed.

Lemma applyOps_keeps_a_step (ops : list EditorOp) (st : State) :
  (1 <= length (steps st))%nat -> (1 <= length (steps (applyOps ops st)))%nat.
Proof.
  unfold applyOps. revert st.
  induction ops as [|op ops IH]; intros st H; simpl; [done|].
  apply IH, applyOp_keeps_a_step, H.
Qed.

Lemma applyOp_frame (st : State) (op : EditorOp) :
  setSteps (steps st) (applyOp st op) = st.
Proof.
  destruct op as [|i|i f v]; simpl.
  - by destruct st.
  - unfold removeStep. destruct (1 <? Z.of_nat (length (steps st))); by destruct st.
  - unfold handleChange. destruct (Array_get (steps st) i); by destruct st.
Qed.

Lemma applyOps_frame (ops : list EditorOp) (st : State) :
  setSteps (steps st) (applyOps ops st) = st.
Proof.
  unfold applyOps. revert st. induction ops as [|op ops IH]; intros st; simpl.
  - by destruct st.
  - specialize (IH (applyOp st op)).
    transitivity (setSteps (steps st)
                    (setSteps (steps (applyOp st op))
                       (foldl applyOp (applyOp st op) ops))); [reflexivity|].
    rewrite IH. apply applyOp_frame.
Qed.

Lemma applyOp_on_empty (st : State) (op : EditorOp) :
  steps st = [] -> op <> DoAddStep -> applyOp st op = st.
Proof.
  intros He Hop. destruct op as [|index|index field value]; simpl.
  - contradiction.
  - rewrite removeStep_rejects by (rewrite He; simpl; lia). reflexivity.
  - unfold handleChange, Array_get. rewrite He.
    destruct (index <? 0); reflexivity.
Qed.

Lemma applyOps_on_empty (ops : list EditorOp) (st : State) :
  DoAddStep ∉ ops -> steps st = [] -> applyOps ops st = st.
Proof.
  unfold applyOps. revert st.
  induction ops as [|op ops IH]; intros st Hno He; simpl; [reflexivity|].
  apply not_elem_of_cons in Hno as [Hop Hno].
  rewrite applyOp_on_empty by (try assumption; congruence).
  by apply IH.
Qed.

(** C4, as the code has it: the editing operations never empty a list
    that has a step.  So the list has a step after any run that starts
    from a recipe with at least one step, and after any run that starts
    with [addStep].  Entered without a recipe, or with a recipe whose
    [steps] is absent or empty, the list starts empty; and on an empty list
    a run without [addStep] changes nothing, so the list stays empty until
    the first [addStep]. *)
Theorem steps_stay_nonempty (ops : list EditorOp) :
  (forall st, (1 <= length (steps st))%nat ->
              (1 <= length (steps (applyOps ops st)))%nat)
  /\ (forall r l, Recipe.steps r = Some l -> (1 <= length l)%nat ->
        (1 <= length (steps (applyOps ops (initialState (Some r)))))%nat)
  /\ (forall st, (1 <= length (steps (applyOps (DoAddStep :: ops) st)))%nat)
  /\ (forall recipe,
        recipe = None
        \/ (exists r, recipe = Some r
                      /\ (Recipe.steps r = None \/ Recipe.steps r = Some [])) ->
        steps (initialState recipe) = []
        /\ (DoAddStep ∉ ops ->
            applyOps ops (initialState recipe) = initialState recipe))
  /\ (DoAddStep ∉ ops ->
      forall st, steps st = [] ->
                 applyOps ops st = st /\ steps (applyOps ops st) = []).
Proof.
  split; [|split; [|split; [|split]]].
  - intros st. apply applyOps_keeps_a_step.
  - intros r l Hr Hl. apply applyOps_keeps_a_step. simpl. rewrite Hr. done.
  - intros st. unfold applyOps; simpl. apply applyOps_keeps_a_step.
    unfold addStep; simpl. rewrite length_app. simpl. lia.
  - intros recipe H.
    assert (steps (initialState recipe) = []) as He.
    { destruct H as [-> | (r & -> & [Hr | Hr])]; simpl; [done| |];
        rewrite Hr; done. }
    split; [exact He|]. intros Hno. by apply applyOps_on_empty.
  - intros Hno st He. rewrite applyOps_on_empty by assumption. done.
Qed.

Lemma steps_stay_nonempty_witness :
  (1 <= length (steps (applyOps
     [DoRemoveStep 0; DoHandleChange 0 text (lit "Batir"); DoRemoveStep 0]
     (initialState (Some Samples.mine)))))%nat
  /\ applyOps
       [DoRemoveStep 0; DoHandleChange 0 text (lit "Batir"); DoRemoveStep 0]
       (initialState (Some Samples.stepless))
     = initialState (Some Samples.stepless).
Proof.
  split.
  - apply (proj1 (proj2 (steps_stay_nonempty
      [DoRemoveStep 0; DoHandleChange 0 text (lit "Batir"); DoRemoveStep 0]))
      Samples.mine [Samples.mix]); [reflexivity | simpl; lia].
  - apply (proj1 (proj2 (proj2 (proj2 (steps_stay_nonempty
      [DoRemoveStep 0; DoHandleChange 0 text (lit "Batir"); DoRemoveStep 0]))))
      (Some Samples.stepless)).
    + right. exists Samples.stepless. split; [reflexivity|]. right. reflexivity.
    + intros H.
      apply elem_of_cons in H as [H|H]; [discriminate H|].
      apply elem_of_cons in H as [H|H]; [discriminate H|].
      apply elem_of_cons in H as [H|H]; [discriminate H|].
      apply elem_of_nil in H. exact H.
Defined.

(** C4, as the spec states it, fails on a recipe payload: a payload whose
    [steps] is the empty array, and one without [steps], both give an
    editor with no step, and the list is still empty after a
    [removeStep]. *)
Lemma steps_can_be_empty :
  steps (initialState (Some Samples.stepless)) = []
  /\ steps (initialState (Some Samples.fresh)) = []
  /\ steps (applyOps [DoRemoveStep 0] (initialState (Some Samples.stepless))) = []
  /\ ~ (forall (recipe : Recipe.t) (ops : list EditorOp),
          (1 <= length (steps (applyOps ops (initialState (Some recipe)))))%nat).
Proof.
  split; [reflexivity|]. split; [reflexivity|]. split; [reflexivity|].
  intros H. specialize (H Samples.stepless [DoRemoveStep 0]).
  vm_compute in H. lia.
Qed.

End StepListEditor.

(** ** Saving a recipe *)

Section SaveCoordinator.
Import RecipeStepsScreen.

Lemma validSteps_filter (l : list Step.t) :
  Array_filter (fun step _ => isValidStep step) l = List.filter isValidStep l.
Proof. apply filter_from_no_index. Qed.

Lemma filter_nil_iff {A : Type} (p : A -> bool) (l : list A) :
  List.filter p l = [] <-> forall x, x ∈ l -> p x = false.
Proof.
  induction l as [|x l IH]; simpl.
  - split; [|done]. intros _ x Hx. inversion Hx.
  - destruct (p x) eqn:Hp; split.
    + discriminate.
    + intros H. specialize (H x (list_elem_of_here x l)). congruence.
    + intros H y Hy. apply elem_of_cons in Hy as [->|Hy]; [done|].
      by apply IH.
    + intros H. apply IH. intros y Hy. apply H. by right.
Qed.

(** The test on a property: present, non-empty and not blank. *)
Lemma nonblank_test (o : option JsString) :
  truthyStr o && negb (isEmptyString (trim (default [] o)))
  = negb (blankAfterTrim o).
Proof.
  destruct o as [s|]; simpl; [|done].
  destruct s as [|c s]; simpl; [done|]. done.
Qed.

Lemma isValidStep_blank (step : Step.t) :
  isValidStep step
  = negb (blankAfterTrim (Step.text step))
    || negb (blankAfterTrim (Step.description step)).
Proof. unfold isValidStep. by rewrite !nonblank_test. Qed.

Lemma isEdit_true (recipe : Recipe.t) :
  isEdit recipe = true
  <-> exists id, Recipe.id recipe = Some id /\ trim id <> []
                 /\ Recipe.createdByUser recipe = Some true.
Proof.
  unfold isEdit. rewrite nonblank_test.
  destruct (Recipe.id recipe) as [id|]; simpl.
  - destruct (trim id) eqn:Ht; simpl.
    + split; [discriminate|]. intros (id' & [= <-] & Hne & _). congruence.
    + destruct (Recipe.createdByUser recipe) as [[]|]; simpl.
      * split; [|done]. intros _. exists id. by rewrite Ht.
      * split; [discriminate|]. intros (? & _ & _ & [=]).
      * split; [discriminate|]. intros (? & _ & _ & [=]).
  - split; [discriminate|]. intros (? & [=] & _).
Qed.

(** What [handleSave] does once both checks pass. *)
Lemma handleSave_passes (recipe : Recipe.t) (st : State) (ings : list JsValue) :
  Recipe.ingredients recipe = Some ings -> ings <> [] ->
  (exists step, step ∈ steps st /\ isValidStep step = true) ->
  handleSave (Some recipe) st
  = let completeRecipe := withSteps recipe (List.filter isValidStep (steps st)) in
    if isEdit recipe then
      Await (setSaving true st)
            (editRecipe (default [] (Recipe.id recipe)) completeRecipe)
            (afterPersist true)
    else
      Await (setSaving true st) (addRecipe completeRecipe) (afterPersist false).
Proof.
  intros Hi Hne (step & Hin & Hv). unfold handleSave. rewrite Hi.
  destruct ings as [|i ings]; [exfalso; apply Hne; reflexivity|]. cbn [length].
  destruct (Z.eqb_spec (Z.of_nat (S (length ings))) 0); [lia|].
  rewrite validSteps_filter.
  destruct (List.filter isValidStep (steps st)) as [|v vs] eqn:Hf.
  - rewrite filter_nil_iff in Hf. rewrite (Hf _ Hin) in Hv. discriminate.
  - cbn [length].
    destruct (Z.eqb_spec (Z.of_nat (S (length vs))) 0); [lia|]. done.
Qed.

(** C1: for a draft that passes both checks, [handleSave] calls
    [editRecipe(id, completeRecipe)] when the recipe has an id that is not
    blank and is created by the user, and a fulfilled call leaves
    [modalType] at [EDIT_SUCCESS]; in every other case (so also without an
    id, whatever [createdByUser] is) it calls [addRecipe(completeRecipe)],
    and a fulfilled call leaves [modalType] at [CREATE_SUCCESS].  In both,
    [completeRecipe] is the recipe with its own id, [createdByUser],
    ingredients and other properties, and with the editor's steps that
    pass the filter as its [steps]. *)
Theorem handleSave_edit_or_create
    (recipe : Recipe.t) (st : State) (ings : list JsValue) :
  Recipe.ingredients recipe = Some ings -> ings <> [] ->
  (exists step, step ∈ steps st /\ isValidStep step = true) ->
  let completeRecipe :=
    Recipe.mk (Recipe.id recipe) (Recipe.createdByUser recipe)
              (Recipe.ingredients recipe)
              (Some (List.filter isValidStep (steps st)))
              (Recipe.others recipe) in
  (forall id,
     Recipe.id recipe = Some id -> trim id <> [] ->
     Recipe.createdByUser recipe = Some true ->
     handleSave (Some recipe) st
     = Await (setSaving true st) (editRecipe id completeRecipe) (afterPersist true)
     /\ (forall cur, modalType (fst (afterPersist true (Fulfilled ()) cur))
                      = Some EDIT_SUCCESS)
     /\ (forall store, store (editRecipe id completeRecipe) = Fulfilled () ->
          exists st',
            runAsync store (handleSave (Some recipe) st)
            = Some (st', [Store (editRecipe id completeRecipe)])
            /\ modalType st' = Some EDIT_SUCCESS))
  /\ (~ (exists id, Recipe.id recipe = Some id /\ trim id <> []
                    /\ Recipe.createdByUser recipe = Some true) ->
      handleSave (Some recipe) st
      = Await (setSaving true st) (addRecipe completeRecipe) (afterPersist false)
      /\ (forall cur, modalType (fst (afterPersist false (Fulfilled ()) cur))
                       = Some CREATE_SUCCESS)
      /\ (forall store, store (addRecipe completeRecipe) = Fulfilled () ->
           exists st',
             runAsync store (handleSave (Some recipe) st)
             = Some (st', [Store (addRecipe completeRecipe)])
             /\ modalType st' = Some CREATE_SUCCESS)).
Proof.
  intros Hi Hne Hv completeRecipe.
  pose proof (handleSave_passes recipe st ings Hi Hne Hv) as Hs.
  cbv zeta in Hs. unfold withSteps in Hs. fold completeRecipe in Hs. split.
  - intros id Hid Ht Hc.
    assert (isEdit recipe = true) as He by (apply isEdit_true; eauto).
    rewrite He, Hid in Hs. change (default [] (Some id)) with id in Hs.
    rewrite Hs.
    split; [done|]. split; [done|].
    intros store Hstore. simpl. rewrite Hstore. simpl. eauto.
  - intros Hno.
    assert (isEdit recipe = false) as He.
    { destruct (isEdit recipe) eqn:E; [|done].
      apply isEdit_true in E. contradiction. }
    rewrite He in Hs. rewrite Hs.
    split; [done|]. split; [done|].
    intros store Hstore. simpl. rewrite Hstore. simpl. eauto.
Qed.

Lemma handleSave_edit_or_create_witness :
  (exists st',
     runAsync (fun _ => Fulfilled ())
              (handleSave (Some Samples.mine)
                          (Samples.editing [Samples.mix; Samples.spaces;
                                            Samples.serve]))
     = Some (st', [Store (editRecipe (lit "r1")
                            (Recipe.mk (Some (lit "r1")) (Some true)
                                       (Some [Samples.flour])
                                       (Some [Samples.mix; Samples.serve]) []))])
     /\ modalType st' = Some EDIT_SUCCESS)
  /\ (exists st',
        runAsync (fun _ => Fulfilled ())
                 (handleSave (Some Samples.fresh)
                             (Samples.editing [Samples.spaces; Samples.bake]))
        = Some (st', [Store (addRecipe
                               (Recipe.mk None (Some true)
                                          (Some [Samples.flour])
                                          (Some [Samples.bake]) []))])
        /\ modalType st' = Some CREATE_SUCCESS).
Proof.
  split.
  - assert (exists step,
              step ∈ steps (Samples.editing [Samples.mix; Samples.spaces;
                                             Samples.serve])
              /\ isValidStep step = true) as Hv.
    { exists Samples.mix. split; [apply list_elem_of_here | reflexivity]. }
    assert (trim (lit "r1") <> []) as Ht by (vm_compute; discriminate).
    assert ([Samples.flour] <> []) as Hne by discriminate.
    pose proof (handleSave_edit_or_create Samples.mine
      (Samples.editing [Samples.mix; Samples.spaces; Samples.serve])
      [Samples.flour] eq_refl Hne Hv) as H.
    pose proof (proj1 H (lit "r1") eq_refl Ht eq_refl) as Hedit.
    exact (proj2 (proj2 Hedit) (fun _ => Fulfilled ()) eq_refl).
  - assert (exists step,
              step ∈ steps (Samples.editing [Samples.spaces; Samples.bake])
              /\ isValidStep step = true) as Hv.
    { exists Samples.bake.
      split; [apply list_elem_of_further, list_elem_of_here | reflexivity]. }
    assert ([Samples.flour] <> []) as Hne by discriminate.
    assert (~ (exists id, Recipe.id Samples.fresh = Some id /\ trim id <> []
                /\ Recipe.createdByUser Samples.fresh = Some true)) as Hno.
    { intros (id & H & _). discriminate H. }
    pose proof (handleSave_edit_or_create Samples.fresh
      (Samples.editing [Samples.spaces; Samples.bake])
      [Samples.flour] eq_refl Hne Hv) as H.
    pose proof (proj2 H Hno) as Hcreate.
    exact (proj2 (proj2 Hcreate) (fun _ => Fulfilled ()) eq_refl).
Defined.

(** C2: with [ingredients] absent or empty, [handleSave] raises the
    "at least one ingredient" alert and returns: no setter runs, so the
    state (with [saving] and [modalType]) is the one it started from, and
    neither [editRecipe] nor [addRecipe] is called. *)
Theorem handleSave_no_ingredients (recipe : Recipe.t) (st : State) :
  Recipe.ingredients recipe = None \/ Recipe.ingredients recipe = Some [] ->
  handleSave (Some recipe) st = Return st [noIngredients]
  /\ (forall store,
        exists fx, runAsync store (handleSave (Some recipe) st) = Some (st, fx)
                   /\ persistenceCalls fx = [])
  /\ (forall st1 call k, handleSave (Some recipe) st <> Await st1 call k).
Proof.
  intros H.
  assert (handleSave (Some recipe) st = Return st [noIngredients]) as Hs.
  { unfold handleSave. destruct H as [-> | ->]; reflexivity. }
  rewrite Hs. split; [done|]. split; [|discriminate].
  intros store. exists [noIngredients]. done.
Qed.

Lemma handleSave_no_ingredients_witness :
  handleSave (Some Samples.unstocked) (Samples.editing [Samples.mix])
  = Return (Samples.editing [Samples.mix]) [noIngredients].
Proof.
  apply (handleSave_no_ingredients Samples.unstocked
           (Samples.editing [Samples.mix])).
  right. reflexivity.
Defined.

(** C3: a step passes the filter exactly when its [text] or its
    [description] is present and not blank after trimming; with
    ingredients present and every step failing that test, [handleSave]
    raises the "at least one step" alert and returns, the state unchanged
    and no store call made. *)
Theorem handleSave_no_valid_steps :
  (forall step : Step.t,
     isValidStep step = true
     <-> blankAfterTrim (Step.text step) = false
         \/ blankAfterTrim (Step.description step) = false)
  /\ (forall (recipe : Recipe.t) (st : State) (ings : list JsValue),
        Recipe.ingredients recipe = Some ings -> ings <> [] ->
        (forall step, step ∈ steps st ->
           blankAfterTrim (Step.text step) = true
           /\ blankAfterTrim (Step.description step) = true) ->
        handleSave (Some recipe) st = Return st [noValidSteps]
        /\ (forall store,
              exists fx,
                runAsync store (handleSave (Some recipe) st) = Some (st, fx)
                /\ persistenceCalls fx = [])
        /\ (forall st1 call k, handleSave (Some recipe) st <> Await st1 call k)).
Proof.
  split.
  - intros step. rewrite isValidStep_blank.
    destruct (blankAfterTrim (Step.text step)),
             (blankAfterTrim (Step.description step)); simpl; intuition congruence.
  - intros recipe st ings Hi Hne Hblank.
    assert (handleSave (Some recipe) st = Return st [noValidSteps]) as Hs.
    { unfold handleSave. rewrite Hi.
      destruct ings as [|i ings]; [exfalso; apply Hne; reflexivity|]. cbn [length].
      destruct (Z.eqb_spec (Z.of_nat (S (length ings))) 0); [lia|].
      rewrite validSteps_filter.
      replace (List.filter isValidStep (steps st)) with (@nil Step.t); [done|].
      symmetry. apply filter_nil_iff. intros step Hin.
      rewrite isValidStep_blank. destruct (Hblank step Hin) as [-> ->]. done. }
    rewrite Hs. split; [done|]. split; [|discriminate].
    intros store. exists [noValidSteps]. done.
Qed.

Lemma handleSave_no_valid_steps_witness :
  isValidStep Samples.bake = true
  /\ handleSave (Some Samples.mine)
                (Samples.editing [Samples.spaces; blankStep])
     = Return (Samples.editing [Samples.spaces; blankStep]) [noValidSteps].
Proof.
  split.
  - apply (proj1 handleSave_no_valid_steps Samples.bake). right. reflexivity.
  - apply (proj2 handleSave_no_valid_steps Samples.mine
             (Samples.editing [Samples.spaces; blankStep]) [Samples.flour]).
    + reflexivity.
    + discriminate.
    + intros step Hin.
      apply elem_of_cons in Hin as [-> | Hin]; [split; reflexivity|].
      apply elem_of_cons in Hin as [-> | Hin]; [split; reflexivity|].
      apply elem_of_nil in Hin. destruct Hin.
Defined.

(** *** The pending call and its outcome *)

Lemma handleSave_await_inv (recipe : option Recipe.t) (st st1 : State)
    (call : StoreCall) (k : Settled unit -> State -> State * list Effect) :
  handleSave recipe st = Await st1 call k ->
  st1 = setSaving true st /\ exists edit, k = afterPersist edit.
Proof.
  unfold handleSave. destruct recipe as [recipe|]; [|discriminate].
  destruct (match Recipe.ingredients recipe with
            | Some l => Z.of_nat (length l) =? 0
            | None => true
            end); [discriminate|].
  destruct (Z.of_nat (length (Array_filter _ (steps st))) =? 0); [discriminate|].
  destruct (isEdit recipe); intros [= <- _ <-]; eauto.
Qed.

Lemma afterPersist_clears_saving (edit : bool) (r : Settled unit) (cur : State) :
  saving (fst (afterPersist edit r cur)) = false
  /\ persistenceCalls (snd (afterPersist edit r cur)) = [].
Proof. destruct r as [[]|[m|v]], edit; split; reflexivity. Qed.

Lemma afterPersist_rejected (edit : bool) (error : Thrown) (cur : State) :
  let st' := fst (afterPersist edit (RejectedWith error) cur) in
  modalType st' = Some ERROR /\ showErrorModal st' = true
  /\ errorType st' = match error with
                     | ErrorObject message => message
                     | NonError _ => lit "ERROR_GENERAL"
                     end.
Proof. destruct error; repeat split. Qed.

Lemma getErrorMessage_classify (st : State) :
  getErrorMessage st = errorText (classifyError (errorType st)).
Proof.
  unfold getErrorMessage, classifyError.
  repeat (case_decide; [reflexivity|]). reflexivity.
Qed.

Lemma errorText_inj (k1 k2 : ErrorKind) : errorText k1 = errorText k2 -> k1 = k2.
Proof.
  destruct k1, k2; intros H; try reflexivity;
    apply (f_equal title) in H; vm_compute in H; discriminate H.
Qed.

Lemma classifyError_table :
  classifyError (lit "IMAGEN_INVALIDA") = ImageInvalid
  /\ classifyError (lit "INGREDIENTE_INVALIDO") = IngredientInvalid
  /\ classifyError (lit "PASO_INVALIDO") = StepInvalid
  /\ classifyError (lit "ERROR_VALIDACION") = GeneralValidation
  /\ classifyError (lit "ERROR_GENERAL") = GeneralError.
Proof. repeat split; vm_compute; reflexivity. Qed.

Lemma classifyError_default (identifier : JsString) :
  identifier <> lit "IMAGEN_INVALIDA" ->
  identifier <> lit "INGREDIENTE_INVALIDO" ->
  identifier <> lit "PASO_INVALIDO" ->
  identifier <> lit "ERROR_VALIDACION" ->
  classifyError identifier = GeneralError.
Proof.
  intros H1 H2 H3 H4. unfold classifyError.
  repeat (case_decide; [contradiction|]). reflexivity.
Qed.

(** C6: once [handleSave] has issued its store call, [saving] is true;
    however the call settles, the rest of the handler ends with [saving]
    false and makes no further store call.  When the call rejects, the
    handler leaves [modalType] at [ERROR] with the error modal shown, and
    [errorType] holds the message of the [Error], or "ERROR_GENERAL" for a
    thrown value that is not an [Error]; the modal text is the text of
    the one kind the identifier is classified as: the four known
    identifiers have a kind each, every other identifier (and every
    non-[Error] value) falls to the general default, and no two kinds
    share a text. *)
Theorem persistence_failure_handled (recipe : option Recipe.t)
    (st st1 : State) (call : StoreCall)
    (k : Settled unit -> State -> State * list Effect) :
  handleSave recipe st = Await st1 call k ->
  saving st1 = true
  /\ (forall r cur, saving (fst (k r cur)) = false
                    /\ persistenceCalls (snd (k r cur)) = [])
  /\ (forall error cur,
        let st' := fst (k (RejectedWith error) cur) in
        modalType st' = Some ERROR /\ showErrorModal st' = true
        /\ errorType st' = match error with
                           | ErrorObject message => message
                           | NonError _ => lit "ERROR_GENERAL"
                           end
        /\ getErrorMessage st' = errorText (classifyError (errorType st'))
        /\ (forall v, error = NonError v ->
                      classifyError (errorType st') = GeneralError))
  /\ (classifyError (lit "IMAGEN_INVALIDA") = ImageInvalid
      /\ classifyError (lit "INGREDIENTE_INVALIDO") = IngredientInvalid
      /\ classifyError (lit "PASO_INVALIDO") = StepInvalid
      /\ classifyError (lit "ERROR_VALIDACION") = GeneralValidation
      /\ forall identifier,
           identifier <> lit "IMAGEN_INVALIDA" ->
           identifier <> lit "INGREDIENTE_INVALIDO" ->
           identifier <> lit "PASO_INVALIDO" ->
           identifier <> lit "ERROR_VALIDACION" ->
           classifyError identifier = GeneralError)
  /\ (forall k1 k2, errorText k1 = errorText k2 -> k1 = k2).
Proof.
  intros H. apply handleSave_await_inv in H as [-> [edit ->]].
  split; [reflexivity|]. split; [apply afterPersist_clears_saving|].
  split; [|split].
  - intros error cur st'.
    destruct (afterPersist_rejected edit error cur) as (Hm & Hs & He).
    fold st' in Hm, Hs, He.
    repeat split; try assumption.
    + apply getErrorMessage_classify.
    + intros v ->. rewrite He. apply classifyError_table.
  - destruct classifyError_table as (H1 & H2 & H3 & H4 & _).
    repeat split; try assumption. apply classifyError_default.
  - apply errorText_inj.
Qed.

Lemma persistence_failure_handled_witness :
  saving (fst (afterPersist true
                 (RejectedWith (ErrorObject (lit "PASO_INVALIDO")))
                 Samples.inFlight)) = false
  /\ getErrorMessage (fst (afterPersist true
                             (RejectedWith (ErrorObject (lit "PASO_INVALIDO")))
                             Samples.inFlight))
     = errorText StepInvalid.
Proof.
  assert (handleSave (Some Samples.mine) (Samples.editing [Samples.mix])
          = Await Samples.inFlight (editRecipe (lit "r1") Samples.mine)
                  (afterPersist true)) as Hs by reflexivity.
  pose proof (persistence_failure_handled _ _ _ _ _ Hs) as (_ & Hfin & Hrej & _).
  split.
  - apply Hfin.
  - destruct (Hrej (ErrorObject (lit "PASO_INVALIDO")) Samples.inFlight)
      as (_ & _ & _ & Hmsg & _).
    rewrite Hmsg. reflexivity.
Defined.

(** C5: once a press on the save button has started a save and its store
    call is pending, [saving] is true, and it stays true through any
    editing of the steps.  Every press on the save button in such a state,
    with whatever recipe, is refused: the button is disabled, [handleSave]
    does not run, the state is the same and no store call is made. *)
Theorem pressSave_while_saving (recipe : option Recipe.t) (st st1 : State)
    (call : StoreCall) (k : Settled unit -> State -> State * list Effect) :
  pressSave recipe st = Await st1 call k ->
  saving st = false /\ saving st1 = true
  /\ forall (ops : list EditorOp) (recipe' : option Recipe.t),
       saving (applyOps ops st1) = true
       /\ pressSave recipe' (applyOps ops st1) = Return (applyOps ops st1) []
       /\ forall store,
            runAsync store (pressSave recipe' (applyOps ops st1))
            = Some (applyOps ops st1, []).
Proof.
  unfold pressSave at 1. destruct (saving st) eqn:Hs; [discriminate|].
  intros H. apply handleSave_await_inv in H as [-> _].
  split; [reflexivity|]. split; [reflexivity|].
  intros ops recipe'.
  assert (saving (applyOps ops (setSaving true st)) = true) as Hsav.
  { pose proof (applyOps_frame ops (setSaving true st)) as Hf.
    apply (f_equal saving) in Hf. exact Hf. }
  unfold pressSave. rewrite Hsav. repeat split.
Qed.

Lemma pressSave_while_saving_witness :
  pressSave (Some Samples.fresh) (applyOps [DoAddStep] Samples.inFlight)
  = Return (applyOps [DoAddStep] Samples.inFlight) [].
Proof.
  assert (pressSave (Some Samples.mine) (Samples.editing [Samples.mix])
          = Await Samples.inFlight (editRecipe (lit "r1") Samples.mine)
                  (afterPersist true)) as Hs by reflexivity.
  pose proof (pressSave_while_saving _ _ _ _ _ Hs) as (_ & _ & H).
  apply (H [DoAddStep] (Some Samples.fresh)).
Defined.

End SaveCoordinator.

(** ** Toggling a favorite *)

Section Favorites.
Import FavoritesScreen.

(** C9: when [user?.id] is falsy (no user, or a user without an id), the
    handler asks for the login prompt and never calls [toggleFavorite];
    otherwise it calls [toggleFavorite(item)] once, asks for no login
    prompt, and raises an alert exactly when the answer has [success]
    false and a non-empty [message], which is the text of the alert. *)
Theorem handleFavoritePress_spec (user : option User.t) (item : JsValue)
    (store : JsValue -> ToggleResult) :
  let fx := runAsync store (handleFavoritePress user item) in
  (truthy (userId user) = false ->
     fx = [showLoginAlert (navigate (lit "Login"))]
     /\ mutatorCalls fx = [] /\ alerts fx = [])
  /\ (user = None -> truthy (userId user) = false)
  /\ (truthy (userId user) = true ->
      mutatorCalls fx = [item] /\ loginPrompts fx = []
      /\ (alerts fx <> []
          <-> success (store item) = false
              /\ exists m, message (store item) = Some m /\ m <> [])
      /\ (forall m, success (store item) = false ->
                    message (store item) = Some m -> m <> [] ->
                    alerts fx = [(lit "Error", m)])).
Proof.
  intros fx. subst fx. unfold handleFavoritePress. split; [|split].
  - intros ->. simpl. repeat split.
  - intros ->. reflexivity.
  - intros ->. simpl.
    destruct (store item) as [ok [m|]]; simpl.
    + destruct ok, m as [|c m]; simpl; repeat split;
        try congruence; try (intros (? & ? & ? & ?); congruence);
        try (intros (? & ?); congruence).
      exists (c :: m). split; [reflexivity|discriminate].
    + destruct ok; simpl; repeat split; try congruence;
        intros (? & ? & ? & ?); congruence.
Qed.

Lemma handleFavoritePress_spec_witness :
  runAsync (fun _ => mkToggleResult false (Some (lit "LIMITE")))
           (handleFavoritePress (Some Samples.anonymous) Samples.cake)
  = [showLoginAlert (navigate (lit "Login"))]
  /\ alerts (runAsync (fun _ => mkToggleResult false (Some (lit "LIMITE")))
                      (handleFavoritePress (Some Samples.ana) Samples.cake))
     = [(lit "Error", lit "LIMITE")].
Proof.
  split.
  - apply (proj1 (handleFavoritePress_spec (Some Samples.anonymous)
                    Samples.cake
                    (fun _ => mkToggleResult false (Some (lit "LIMITE"))))).
    reflexivity.
  - apply (proj2 (proj2 (handleFavoritePress_spec (Some Samples.ana)
                           Samples.cake
                           (fun _ => mkToggleResult false (Some (lit "LIMITE")))))).
    + reflexivity.
    + reflexivity.
    + reflexivity.
    + vm_compute. discriminate.
Defined.
End Favorites.

(** ** Editing and the rendered list *)

Section StepEditing.
Import RecipeStepsScreen RecipeStepsView.

Lemma Array_get_Some {A : Type} (l : list A) (index : Z) (x : A) :
  Array_get l index = Some x <-> 0 <= index /\ l !! Z.to_nat index = Some x.
Proof.
  unfold Array_get. destruct (Z.ltb_spec index 0); split.
  - discriminate.
  - intros [? _]. lia.
  - intros H'. split; [lia|done].
  - intros [_ H']. done.
Qed.

Lemma Array_get_None {A : Type} (l : list A) (index : Z) :
  Array_get l index = None <-> index < 0 \/ Z.of_nat (length l) <= index.
Proof.
  unfold Array_get. destruct (Z.ltb_spec index 0); split.
  - intros _. by left.
  - done.
  - intros H'. apply lookup_ge_None in H'. right. lia.
  - intros [?|?]; [lia|]. apply lookup_ge_None. lia.
Qed.

Lemma assignField_get (field : StepField) (value : JsString) (s : Step.t) :
  getField field (assignField field value s) = Some value
  /\ forall f, f <> field -> getField f (assignField field value s) = getField f s.
Proof. split; [by destruct field|]. intros f Hf. by destruct field, f. Qed.

(** X1: [handleChange] with an index inside the list writes [value] to the
    one field of the step at that index: the list keeps its length, the
    other fields of that step are as before, and so is the rest of the
    state.  With an index outside the list (so always on the empty list) it
    throws and sets nothing.  (Nothing is said of the other entries: the
    write goes into the step object, and shows wherever that object sits.) *)
Theorem handleChange_spec (st : State) (index : Z) (field : StepField)
    (value : JsString) :
  (0 <= index < Z.of_nat (length (steps st)) ->
   exists st' s,
     handleChange index field value st = Some st'
     /\ steps st !! Z.to_nat index = Some s
     /\ length (steps st') = length (steps st)
     /\ (exists s', steps st' !! Z.to_nat index = Some s'
                    /\ getField field s' = Some value
                    /\ forall f, f <> field -> getField f s' = getField f s)
     /\ setSteps (steps st) st' = st)
  /\ (index < 0 \/ Z.of_nat (length (steps st)) <= index ->
      handleChange index field value st = None).
Proof.
  split.
  - intros Hi.
    destruct (lookup_lt_is_Some_2 (steps st) (Z.to_nat index)) as [s Hs]; [lia|].
    exists (setSteps (<[Z.to_nat index := assignField field value s]> (steps st)) st), s.
    split; [|split; [done|split; [|split]]].
    + unfold handleChange.
      rewrite (proj2 (Array_get_Some (steps st) index s)) by (split; [lia|done]).
      done.
    + simpl. apply length_insert.
    + exists (assignField field value s). simpl.
      split; [apply list_lookup_insert_eq; lia|].
      apply assignField_get.
    + by destruct st.
  - intros Ho. unfold handleChange.
    by rewrite (proj2 (Array_get_None (steps st) index) Ho).
Qed.

Lemma handleChange_spec_witness :
  (exists s', steps (default (Samples.editing [])
                       (handleChange 1 text (lit "Batir")
                          (Samples.editing [Samples.mix; Samples.bake])))
              !! 1%nat = Some s'
              /\ Step.text s' = Some (lit "Batir")
              /\ Step.description s' = Step.description Samples.bake)
  /\ handleChange 2 text (lit "Batir")
                  (Samples.editing [Samples.mix; Samples.bake]) = None.
Proof.
  pose proof (handleChange_spec (Samples.editing [Samples.mix; Samples.bake])
                1 text (lit "Batir")) as [Hin _].
  pose proof (handleChange_spec (Samples.editing [Samples.mix; Samples.bake])
                2 text (lit "Batir")) as [_ Hout].
  split.
  - destruct Hin as (st' & s & Hc & Hs & _ & (s' & Hs' & Hv & Hf) & _).
    + simpl. lia.
    + rewrite Hc. simpl. exists s'. split; [exact Hs'|]. split; [exact Hv|].
      injection Hs as <-. apply (Hf description). discriminate.
  - apply Hout. right. simpl. lia.
Defined.

(** X2: a step that still carries a non-blank legacy [description] cannot be
    emptied through the text input: whatever is typed it stays a valid
    step, and once the text is cleared the input shows the description
    again. *)
Theorem legacy_description_resurfaces (st : State) (index : Z)
    (s : Step.t) (d v : JsString) :
  0 <= index -> steps st !! Z.to_nat index = Some s ->
  Step.description s = Some d -> trim d <> [] ->
  exists st' s',
    handleChange index text v st = Some st'
    /\ steps st' !! Z.to_nat index = Some s'
    /\ isValidStep s' = true
    /\ (v = [] ->
        exists card, renderSteps st' !! Z.to_nat index = Some card
                     /\ value card = d).
Proof.
  intros Hi Hs Hd Ht.
  pose proof (lookup_lt_Some _ _ _ Hs) as Hlt.
  exists (setSteps (<[Z.to_nat index := assignField text v s]> (steps st)) st),
         (assignField text v s).
  split; [|split; [|split]].
  - unfold handleChange.
    by rewrite (proj2 (Array_get_Some (steps st) index s)).
  - simpl. by apply list_lookup_insert_eq.
  - unfold isValidStep. simpl. rewrite Hd. simpl.
    destruct d as [|c d]; [done|]. simpl.
    destruct (trim (c :: d)); [done|]. simpl. apply orb_true_r.
  - intros ->. unfold renderSteps. rewrite list_lookup_imap. simpl.
    rewrite list_lookup_insert_eq by done. simpl.
    eexists; split; [reflexivity|]. simpl.
    unfold orStr. simpl. rewrite Hd. simpl.
    destruct d as [|c d]; [done|]. reflexivity.
Qed.

Lemma legacy_description_resurfaces_witness :
  exists st' s',
    handleChange 0 text (lit "") (Samples.editing [Samples.bake]) = Some st'
    /\ steps st' !! Z.to_nat 0 = Some s'
    /\ isValidStep s' = true
    /\ (lit "" = [] ->
        exists card, renderSteps st' !! Z.to_nat 0 = Some card
                     /\ value card = lit " Hornear ").
Proof.
  apply (legacy_description_resurfaces (Samples.editing [Samples.bake]) 0
           Samples.bake (lit " Hornear ") (lit "")).
  - lia.
  - reflexivity.
  - reflexivity.
  - vm_compute. discriminate.
Defined.

(** X3: removing the step that [addStep] has just appended gives the state
    back, when there was a step before; the first step added to an empty
    list cannot be removed again. *)
Theorem addStep_removeStep (st : State) :
  (steps st <> [] ->
   removeStep (Z.of_nat (length (steps st))) (addStep st) = (st, []))
  /\ (steps st = [] ->
      forall index, removeStep index (addStep st) = (addStep st, [minimumOneStep])).
Proof.
  split.
  - intros Hne.
    assert (1 <= length (steps st))%nat as Hlen.
    { destruct (steps st); [done|]. simpl. lia. }
    rewrite removeStep_in_range.
    + cbn [addStep setSteps steps]. rewrite Nat2Z.id.
      rewrite take_app_length.
      rewrite drop_ge by (rewrite length_app; simpl; lia).
      rewrite app_nil_r. by destruct st.
    + unfold addStep; simpl. rewrite length_app. simpl. lia.
    + unfold addStep; simpl. rewrite length_app. simpl. lia.
  - intros He index. apply removeStep_rejects.
    unfold addStep; simpl. rewrite He. simpl. lia.
Qed.

Lemma addStep_removeStep_witness :
  removeStep 2 (addStep (Samples.editing [Samples.mix; Samples.bake]))
  = (Samples.editing [Samples.mix; Samples.bake], [])
  /\ removeStep 0 (addStep (Samples.editing []))
     = (addStep (Samples.editing []), [minimumOneStep]).
Proof.
  split.
  - apply (proj1 (addStep_removeStep
                    (Samples.editing [Samples.mix; Samples.bake]))).
    discriminate.
  - apply (proj2 (addStep_removeStep (Samples.editing []))). reflexivity.
Defined.

(** X4: the "Eliminar" buttons: none is rendered for a list of one step (or
    none); every button that is rendered passes the index of its own card,
    and pressing it raises no alert and leaves exactly one step fewer.  So
    the alert of [removeStep] cannot be raised from the rendered screen. *)
Theorem rendered_remove_buttons (st : State) :
  length (renderSteps st) = length (steps st)
  /\ ((length (steps st) <= 1)%nat ->
      forall card, card ∈ renderSteps st -> removeButton card = None)
  /\ (forall card i,
        card ∈ renderSteps st -> removeButton card = Some i ->
        i = index card
        /\ renderSteps st !! Z.to_nat i = Some card
        /\ snd (removeStep i st) = []
        /\ S (length (steps (fst (removeStep i st)))) = length (steps st)).
Proof.
  unfold renderSteps. split; [apply length_imap|]. split.
  - intros Hlen card Hc.
    apply elem_of_lookup_imap_1 in Hc as (k & x & -> & Hx). simpl.
    destruct (Z.ltb_spec 1 (Z.of_nat (length (steps st)))); [lia|done].
  - intros card i Hc Hb.
    apply elem_of_lookup_imap_1 in Hc as (k & x & -> & Hx). simpl in *.
    pose proof (lookup_lt_Some _ _ _ Hx) as Hk.
    destruct (Z.ltb_spec 1 (Z.of_nat (length (steps st)))); [|discriminate].
    injection Hb as <-. rewrite Nat2Z.id.
    split; [done|]. split.
    + rewrite list_lookup_imap, Hx. done.
    + rewrite removeStep_in_range by lia. simpl.
      split; [done|]. rewrite length_take_drop_S by lia. lia.
Qed.

Lemma rendered_remove_buttons_witness :
  snd (removeStep 0 (Samples.editing [Samples.mix; Samples.bake])) = []
  /\ S (length (steps (fst (removeStep 0
                             (Samples.editing [Samples.mix; Samples.bake])))))
     = 2%nat.
Proof.
  pose proof (proj2 (proj2 (rendered_remove_buttons
    (Samples.editing [Samples.mix; Samples.bake])))
    (renderStep (Samples.editing [Samples.mix; Samples.bake]) 0 Samples.mix) 0)
    as H.
  destruct H as (_ & _ & Hfx & Hlen).
  - apply list_elem_of_here.
  - reflexivity.
  - split; [exact Hfx | exact Hlen].
Defined.

(** X5: editing touches the step list only: after any run of [addStep],
    [removeStep] and [handleChange], the modals, [isEditing], [saving],
    [modalType] and [errorType] are what they were. *)
Theorem editing_changes_steps_only (ops : list EditorOp) (st : State) :
  showSuccessModal (applyOps ops st) = showSuccessModal st
  /\ showErrorModal (applyOps ops st) = showErrorModal st
  /\ isEditing (applyOps ops st) = isEditing st
  /\ saving (applyOps ops st) = saving st
  /\ modalType (applyOps ops st) = modalType st
  /\ errorType (applyOps ops st) = errorType st.
Proof.
  pose proof (applyOps_frame ops st) as H.
  destruct (applyOps ops st), st. simpl in *.
  injection H as <- <- <- <- <- <-. repeat split.
Qed.

(** X6: entered without a recipe in the route, the screen cannot save: whatever
    steps are entered, a press on the save button ends in the TypeError of
    reading [recipe.ingredients]; no alert is raised, no state set, no call
    made. *)
Theorem save_without_recipe (ops : list EditorOp) :
  pressSave None (applyOps ops (initialState None)) = ThrowTypeError.
Proof.
  unfold pressSave.
  pose proof (applyOps_frame ops (initialState None)) as H.
  apply (f_equal saving) in H. simpl in H. rewrite H. reflexivity.
Qed.

End StepEditing.

(** ** What a save sends, and what it leaves behind *)

Section SaveOutcome.
Import RecipeStepsScreen RecipeStepsView.

Lemma filter_sublist {A : Type} (p : A -> bool) (l : list A) :
  List.filter p l `sublist_of` l.
Proof.
  induction l as [|x l IH]; simpl; [constructor|].
  destruct (p x); by constructor.
Qed.

Lemma elem_of_filter_bool {A : Type} (p : A -> bool) (l : list A) (x : A) :
  x ∈ List.filter p l <-> x ∈ l /\ p x = true.
Proof. rewrite !list_elem_of_In. apply filter_In. Qed.

(** The two ways [handleSave] can reach its [await]. *)
Lemma handleSave_await_cases (recipe : option Recipe.t) (st st1 : State)
    (call : StoreCall) (k : Settled unit -> State -> State * list Effect) :
  handleSave recipe st = Await st1 call k ->
  exists r,
    recipe = Some r /\ st1 = setSaving true st
    /\ (exists ings, Recipe.ingredients r = Some ings /\ ings <> [])
    /\ List.filter isValidStep (steps st) <> []
    /\ ((call = editRecipe (default [] (Recipe.id r))
                           (withSteps r (List.filter isValidStep (steps st)))
         /\ k = afterPersist true)
        \/ (call = addRecipe (withSteps r (List.filter isValidStep (steps st)))
            /\ k = afterPersist false)).
Proof.
  unfold handleSave. destruct recipe as [r|]; [|discriminate].
  destruct (Recipe.ingredients r) as [ings|] eqn:Hi; [|discriminate].
  destruct (Z.eqb_spec (Z.of_nat (length ings)) 0); [discriminate|].
  rewrite validSteps_filter.
  destruct (Z.eqb_spec (Z.of_nat (length (List.filter isValidStep (steps st)))) 0);
    [discriminate|].
  intros H. exists r. split; [reflexivity|].
  assert (ings <> []) as Hne by (intros ->; simpl in *; lia).
  assert (List.filter isValidStep (steps st) <> []) as Hv.
  { intros E. rewrite E in *. simpl in *. lia. }
  destruct (isEdit r); injection H as <- <- <-; eauto 10.
Qed.

(** What [handleSave] looks at in the state is the step list only. *)
Lemma handleSave_steps_only (recipe : option Recipe.t) (st st' st1 : State)
    (call : StoreCall) (k : Settled unit -> State -> State * list Effect) :
  handleSave recipe st = Await st1 call k -> steps st' = steps st ->
  handleSave recipe st' = Await (setSaving true st') call k.
Proof.
  unfold handleSave. intros H Hs. rewrite Hs.
  destruct recipe as [r|]; [|discriminate].
  destruct (match Recipe.ingredients r with
            | Some l => Z.of_nat (length l) =? 0
            | None => true
            end); [discriminate|].
  destruct (Z.of_nat (length (Array_filter _ (steps st))) =? 0); [discriminate|].
  destruct (isEdit r); injection H as _ <- <-; reflexivity.
Qed.

(** X7: the recipe sent to the store is the route's recipe with its steps
    replaced by exactly the steps of the editor that pass the filter, each
    as often as it occurs and in their order; steps that do not pass are
    left out without a word, and at least one step is sent.  The editor's
    own list is not pruned. *)
Theorem saved_recipe_steps (recipe : Recipe.t) (st st1 : State)
    (call : StoreCall) (k : Settled unit -> State -> State * list Effect) :
  handleSave (Some recipe) st = Await st1 call k ->
  exists vs,
    Recipe.steps (sentRecipe call) = Some vs
    /\ vs = List.filter isValidStep (steps st)
    /\ vs <> [] /\ vs `sublist_of` steps st
    /\ (forall s, s ∈ vs <-> s ∈ steps st /\ isValidStep s = true)
    /\ Recipe.id (sentRecipe call) = Recipe.id recipe
    /\ Recipe.createdByUser (sentRecipe call) = Recipe.createdByUser recipe
    /\ Recipe.ingredients (sentRecipe call) = Recipe.ingredients recipe
    /\ Recipe.others (sentRecipe call) = Recipe.others recipe
    /\ steps st1 = steps st.
Proof.
  intros H.
  apply handleSave_await_cases in H as (r & [= <-] & -> & _ & Hv & Hcall).
  exists (List.filter isValidStep (steps st)).
  assert (sentRecipe call = withSteps recipe (List.filter isValidStep (steps st)))
    as -> by (destruct Hcall as [[-> _]|[-> _]]; reflexivity).
  simpl. split; [reflexivity|]. split; [reflexivity|]. split; [assumption|].
  split; [apply filter_sublist|].
  split; [intros s; apply elem_of_filter_bool|]. repeat split.
Qed.

Lemma saved_recipe_steps_witness :
  exists vs,
    Recipe.steps (sentRecipe (addRecipe
      (Recipe.mk None (Some true) (Some [Samples.flour])
                 (Some [Samples.bake; Samples.bake]) []))) = Some vs
    /\ vs = List.filter isValidStep
                        [Samples.bake; Samples.spaces; Samples.bake].
Proof.
  assert (handleSave (Some Samples.fresh)
            (Samples.editing [Samples.bake; Samples.spaces; Samples.bake])
          = Await (setSaving true
                     (Samples.editing [Samples.bake; Samples.spaces; Samples.bake]))
                  (addRecipe (Recipe.mk None (Some true) (Some [Samples.flour])
                                        (Some [Samples.bake; Samples.bake]) []))
                  (afterPersist false)) as Hs by reflexivity.
  destruct (saved_recipe_steps _ _ _ _ _ Hs) as (vs & H1 & H2 & _).
  exists vs. split; [exact H1 | exact H2].
Defined.

(** X8: however the pending call settles, the rest of [handleSave] leaves the
    step list as it finds it: steps edited while the call was pending are
    kept. *)
Theorem settling_keeps_steps (recipe : option Recipe.t) (st st1 : State)
    (call : StoreCall) (k : Settled unit -> State -> State * list Effect) :
  handleSave recipe st = Await st1 call k ->
  forall r cur, steps (fst (k r cur)) = steps cur.
Proof.
  intros H r cur.
  apply handleSave_await_inv in H as [_ [edit ->]].
  destruct r as [[]|[m|v]], edit; reflexivity.
Qed.

Lemma settling_keeps_steps_witness :
  steps (fst (afterPersist true (RejectedWith (NonError JsNull))
                (addStep Samples.inFlight)))
  = [Samples.mix; blankStep].
Proof.
  assert (handleSave (Some Samples.mine) (Samples.editing [Samples.mix])
          = Await Samples.inFlight (editRecipe (lit "r1") Samples.mine)
                  (afterPersist true)) as Hs by reflexivity.
  rewrite (settling_keeps_steps _ _ _ _ _ Hs). reflexivity.
Defined.

(** X9: a failed save followed by [handleCloseErrorModal] is a round trip: from
    a state with no modal open and no save pending, the state after the
    two is the state before the save, with every step still there. *)
Theorem failed_save_then_close (recipe : option Recipe.t) (st st1 : State)
    (call : StoreCall) (k : Settled unit -> State -> State * list Effect)
    (error : Thrown) :
  handleSave recipe st = Await st1 call k ->
  showErrorModal st = false -> modalType st = None -> errorType st = [] ->
  saving st = false ->
  handleCloseErrorModal (fst (k (RejectedWith error) st1)) = st.
Proof.
  intros H He Hm Ht Hs.
  apply handleSave_await_inv in H as [-> [edit ->]].
  destruct st; simpl in *; subst. by destruct error.
Qed.

Lemma failed_save_then_close_witness :
  handleCloseErrorModal
    (fst (afterPersist true (RejectedWith (ErrorObject (lit "PASO_INVALIDO")))
            Samples.inFlight))
  = Samples.editing [Samples.mix].
Proof.
  assert (handleSave (Some Samples.mine) (Samples.editing [Samples.mix])
          = Await Samples.inFlight (editRecipe (lit "r1") Samples.mine)
                  (afterPersist true)) as Hs by reflexivity.
  apply (failed_save_then_close _ _ _ _ _ (ErrorObject (lit "PASO_INVALIDO")) Hs);
    reflexivity.
Defined.

(** X10: after a failed save the button works again, with the error modal still
    open or closed: a press sends the same call once more. *)
Theorem retry_after_failure (recipe : option Recipe.t) (st st1 : State)
    (call : StoreCall) (k : Settled unit -> State -> State * list Effect)
    (error : Thrown) :
  handleSave recipe st = Await st1 call k ->
  let st' := fst (k (RejectedWith error) st1) in
  pressSave recipe st' = Await (setSaving true st') call k
  /\ pressSave recipe (handleCloseErrorModal st')
     = Await (setSaving true (handleCloseErrorModal st')) call k.
Proof.
  intros H st'.
  pose proof (handleSave_await_inv _ _ _ _ _ H) as [Hst1 [edit Hk]].
  assert (saving st' = false /\ steps st' = steps st) as [Hs Hst].
  { subst st' k st1. by destruct error. }
  unfold pressSave. simpl. rewrite Hs. split.
  - by apply (handleSave_steps_only recipe st st' st1).
  - by apply (handleSave_steps_only recipe st _ st1).
Qed.

Lemma retry_after_failure_witness :
  pressSave (Some Samples.mine)
    (fst (afterPersist true (RejectedWith (NonError JsNull)) Samples.inFlight))
  = Await (setSaving true
             (fst (afterPersist true (RejectedWith (NonError JsNull))
                     Samples.inFlight)))
          (editRecipe (lit "r1") Samples.mine) (afterPersist true).
Proof.
  assert (handleSave (Some Samples.mine) (Samples.editing [Samples.mix])
          = Await Samples.inFlight (editRecipe (lit "r1") Samples.mine)
                  (afterPersist true)) as Hs by reflexivity.
  apply (proj1 (retry_after_failure _ _ _ _ _ (NonError JsNull) Hs)).
Defined.

(** X11: a fulfilled save opens the success modal with the text of what was
    done, "actualizada" after [editRecipe] and "creada" after [addRecipe],
    never the fallback text; [handleGoToMyRecipes] then closes it, clears
    [modalType] and navigates to "Mis Recetas" of "HomeTabs" in both
    cases. *)
Theorem success_modal (recipe : option Recipe.t) (st st1 : State)
    (call : StoreCall) (k : Settled unit -> State -> State * list Effect)
    (cur : State) :
  handleSave recipe st = Await st1 call k ->
  let st' := fst (k (Fulfilled ()) cur) in
  showSuccessModal st' = true
  /\ showErrorModal st' = showErrorModal cur
  /\ SuccessText.title (getSuccessMessage st')
     = match call with
       | editRecipe _ _ => lit "¡Receta actualizada con éxito!"
       | addRecipe _ => lit "¡Receta creada con éxito!"
       end
  /\ SuccessText.buttonText (getSuccessMessage st') = lit "Ir a Mis Recetas"
  /\ isEditing st' = match call with
                     | editRecipe _ _ => true
                     | addRecipe _ => isEditing cur
                     end
  /\ showSuccessModal (fst (handleGoToMyRecipes st')) = false
  /\ modalType (fst (handleGoToMyRecipes st')) = None
  /\ snd (handleGoToMyRecipes st')
     = [navigate (lit "HomeTabs") [(lit "screen", JsStr (lit "Mis Recetas"))]].
Proof.
  intros H st'.
  apply handleSave_await_cases in H as (r & _ & _ & _ & _ & Hcall).
  subst st'. destruct Hcall as [[-> ->]|[-> ->]]; repeat split.
Qed.

Lemma success_modal_witness :
  SuccessText.title (getSuccessMessage
    (fst (afterPersist true (Fulfilled ()) Samples.inFlight)))
  = lit "¡Receta actualizada con éxito!".
Proof.
  assert (handleSave (Some Samples.mine) (Samples.editing [Samples.mix])
          = Await Samples.inFlight (editRecipe (lit "r1") Samples.mine)
                  (afterPersist true)) as Hs by reflexivity.
  apply (success_modal _ _ _ _ _ Samples.inFlight Hs).
Defined.

(** X12: a step without a legacy description is dropped by the filter exactly
    when its text is made of white space only (the empty text included). *)
Theorem blank_text_is_dropped (t : JsString) (url : option JsString) :
  isValidStep (Step.mk (Some t) None url) = false
  <-> forallb isWhiteSpace t = true.
Proof.
  rewrite isValidStep_blank. simpl. rewrite orb_false_r.
  rewrite <- trim_nil. destruct (trim t); simpl; split; congruence.
Qed.

Lemma blank_text_is_dropped_witness :
  isValidStep (Step.mk (Some (lit "  ")) None (Some (lit "http://x/y.png"))) = false.
Proof.
  apply (proj2 (blank_text_is_dropped (lit "  ") (Some (lit "http://x/y.png")))).
  reflexivity.
Defined.

End SaveOutcome.

(** ** The favorites list *)

Section FavoritesListProperties.
Import FavoritesList.




(** X14: the body of the screen is the empty-state container exactly when there
    are no favorites, and otherwise one row per favorite, in order.  The
    list's own empty component, with its "Cargando favoritos..." spinner, is
    never what is rendered. *)
Theorem favorites_body (favorites : list Recipe.t) (refreshing : bool)
    (getRating : option JsString -> option RatingData)
    (isFavorite : option JsString -> bool) :
  (renderBody favorites refreshing getRating isFavorite = emptyContainer
   <-> favorites = [])
  /\ (favorites <> [] ->
      renderBody favorites refreshing getRating isFavorite
      = Rows (map (renderFavorite getRating isFavorite) favorites)
      /\ map item (map (renderFavorite getRating isFavorite) favorites)
         = favorites)
  /\ (forall spinner,
        renderBody favorites refreshing getRating isFavorite
        <> ListEmptyComponent spinner).
Proof.
  unfold renderBody. destruct favorites as [|f fs]; simpl.
  - split; [split; reflexivity|]. split; [intros H; by destruct H|discriminate].
  - split; [split; discriminate|]. split; [|discriminate].
    intros _. split; [reflexivity|].
    f_equal. rewrite map_map. simpl. apply map_id.
Qed.

Lemma favorites_body_witness :
  renderBody [ListSamples.tarta; ListSamples.flan] true
             (fun _ => None) (fun _ => true)
  = Rows (map (renderFavorite (fun _ => None) (fun _ => true))
              [ListSamples.tarta; ListSamples.flan]).
Proof.
  apply (proj1 (proj2 (favorites_body [ListSamples.tarta; ListSamples.flan]
                         true (fun _ => None) (fun _ => true)))).
  discriminate.
Defined.

(** X15: [onRefresh] calls [refreshFavorites] first and then, only if that
    succeeded and there are favorites, [loadMultipleRatings] once with the
    ids of the favorites in order.  [refreshing] is set back to false
    exactly when no call rejected: nothing catches a rejection, so after
    one the indicator stays on and the calls after it are not made. *)
Theorem onRefresh_runs (answer : CacheCall -> Settled unit)
    (favorites : list Recipe.t) (r0 : bool) :
  let run := exec answer (onRefresh favorites) r0 in
  let ids := map Recipe.id favorites in
  (FavoritesList.refreshing run = false <-> rejection run = None)
  /\ (forall e, answer refreshFavorites = RejectedWith e ->
        run = mkRun true [refreshFavorites] (Some e))
  /\ (answer refreshFavorites = Fulfilled () ->
      (favorites = [] -> run = mkRun false [refreshFavorites] None)
      /\ (favorites <> [] -> answer (loadMultipleRatings ids) = Fulfilled () ->
          run = mkRun false [refreshFavorites; loadMultipleRatings ids] None)
      /\ (forall e, favorites <> [] ->
            answer (loadMultipleRatings ids) = RejectedWith e ->
            run = mkRun true [refreshFavorites; loadMultipleRatings ids] (Some e))).
Proof.
  cbv zeta. unfold onRefresh, loadFavoriteRatings. simpl.
  destruct (answer refreshFavorites) as [[]|e0] eqn:Hr; simpl.
  - destruct favorites as [|f fs]; simpl.
    + split; [split; reflexivity|]. split; [discriminate|].
      intros _. split; [reflexivity|]. split; intros; congruence.
    + destruct (answer (loadMultipleRatings (Recipe.id f :: map Recipe.id fs)))
        as [[]|e1] eqn:Hl; simpl.
      * split; [split; reflexivity|]. split; [discriminate|].
        intros _. split; [discriminate|]. split; [reflexivity|]. discriminate.
      * split; [split; discriminate|]. split; [discriminate|].
        intros _. split; [discriminate|]. split; [discriminate|].
        intros e _ [= <-]. reflexivity.
  - split; [split; discriminate|]. split; [|discriminate].
    intros e [= <-]. reflexivity.
Qed.

Lemma onRefresh_runs_witness :
  exec ListSamples.offline (onRefresh [ListSamples.tarta]) false
  = mkRun true [refreshFavorites]
          (Some (ErrorObject (lit "Network request failed"))).
Proof.
  apply (proj1 (proj2 (onRefresh_runs ListSamples.offline [ListSamples.tarta] false))
           (ErrorObject (lit "Network request failed"))).
  reflexivity.
Defined.

End FavoritesListProperties.
